(** * Full-text-search fragment builders of drizzle-orm

    A shallow embedding of [drizzle-orm/src/sql/functions/full-text-search.ts]:
    the eight exported builders [to_tsvector], [to_tsquery], [plainto_tsquery],
    [phraseto_tsquery], [websearch_to_tsquery], [ts_rank], [ts_rank_cd] and
    [setweight], each of which inspects its positional arguments at run time
    and hands one tagged template to the fragment composer [sql]. *)

From Stdlib Require Import Bool List String Ascii ZArith Lia DecimalString.
Import ListNotations.

Local Open Scope list_scope.
Local Open Scope string_scope.

(** ** JavaScript numbers

    A [number] argument never takes part in arithmetic here: the module tests
    its truthiness and prints it ([Array.prototype.join]).  A finite non-zero
    number is therefore kept as the decimal that [Number::toString] is defined
    from: the digits [s] (no trailing zero, [k] of them) and the exponent [n]
    with value [s * 10^(n - k)].  That decimal identifies the double. *)

Inductive number : Type :=
| NaN
| Infinity (negative : bool)
| Zero (negative : bool)
| Finite (negative : bool) (s : positive) (n : Z).

Definition digits (s : positive) : string :=
  NilEmpty.string_of_uint (Pos.to_uint s).

Fixpoint zeros (count : nat) : string :=
  match count with
  | O => ""
  | S c => "0" ++ zeros c
  end.

Definition sign_prefix (negative : bool) : string :=
  if negative then "-" else "".

(** [Number::toString] in radix 10 (ECMA-262, 6.1.6.1.20). *)
Definition Number_toString (x : number) : string :=
  match x with
  | NaN => "NaN"
  | Zero _ => "0"
  | Infinity negative => sign_prefix negative ++ "Infinity"
  | Finite negative s n =>
      let d := digits s in
      let k := Z.of_nat (String.length d) in
      sign_prefix negative ++
      (if (k <=? n)%Z && (n <=? 21)%Z then
         d ++ zeros (Z.to_nat (n - k))
       else if (0 <? n)%Z && (n <=? 21)%Z then
         substring 0 (Z.to_nat n) d ++ "." ++
         substring (Z.to_nat n) (Z.to_nat (k - n)) d
       else if (-6 <? n)%Z && (n <=? 0)%Z then
         "0." ++ zeros (Z.to_nat (- n)) ++ d
       else
         let e := (n - 1)%Z in
         let mantissa :=
           if (k =? 1)%Z then d
           else substring 0 1 d ++ "." ++ substring 1 (Z.to_nat (k - 1)) d in
         mantissa ++ "e" ++ (if (e <? 0)%Z then "-" else "+") ++
         digits (Z.to_pos (Z.abs e)))
  end.

(** [Array.prototype.join] on an array of numbers. *)
Fixpoint Array_join (elements : list number) (separator : string) : string :=
  match elements with
  | [] => ""
  | [x] => Number_toString x
  | x :: rest => Number_toString x ++ separator ++ Array_join rest separator
  end.

(** Some numbers used in the examples. *)
Definition num_0 : number := Zero false.
Definition num_1 : number := Finite false 1 1.
Definition num_2 : number := Finite false 2 1.
Definition num_32 : number := Finite false 32 2.
Definition num_0_1 : number := Finite false 1 0.
Definition num_0_2 : number := Finite false 2 0.
Definition num_0_3 : number := Finite false 3 0.
Definition num_0_4 : number := Finite false 4 0.

(** ** Run-time values

    The values the implementation signatures admit: [undefined] for an
    omitted optional parameter, strings (configuration names, documents,
    queries, weight labels), numbers, arrays of numbers, column references
    and fragments.  Columns and fragments are opaque to this module. *)

Inductive value (SQL AnyPgColumn : Type) : Type :=
| VUndefined
| VString (s : string)
| VNumber (x : number)
| VArray (elements : list number)
| VColumn (column : AnyPgColumn)
| VSQL (fragment : SQL).

Arguments VUndefined {SQL AnyPgColumn}.
Arguments VString {SQL AnyPgColumn} s.
Arguments VNumber {SQL AnyPgColumn} x.
Arguments VArray {SQL AnyPgColumn} elements.
Arguments VColumn {SQL AnyPgColumn} column.
Arguments VSQL {SQL AnyPgColumn} fragment.

(** The weight labels: [type Weight = 'A' | 'B' | 'C' | 'D']. *)
Inductive Weight : Type := A | B | C | D.

Definition Weight_string (w : Weight) : string :=
  match w with
  | A => "A"
  | B => "B"
  | C => "C"
  | D => "D"
  end.

(** Abrupt completions: what a call can raise instead of returning. *)
Inductive exn : Type :=
| TypeError (message : string)
| OtherError (message : string).

Inductive completion (T : Type) : Type :=
| Normal (result : T)
| Throw (e : exn).

Arguments Normal {T} result.
Arguments Throw {T} e.

Definition bind {T U : Type} (c : completion T) (k : T -> completion U)
  : completion U :=
  match c with
  | Normal r => k r
  | Throw e => Throw e
  end.

Notation "x <- c ;; k" := (bind c (fun x => k))
  (at level 61, c at next level, right associativity).

Section Values.

Context {SQL AnyPgColumn : Type}.

Local Abbreviation value := (value SQL AnyPgColumn).

(** The [typeof] operator. *)
Definition typeof (v : value) : string :=
  match v with
  | VUndefined => "undefined"
  | VString _ => "string"
  | VNumber _ => "number"
  | VArray _ | VColumn _ | VSQL _ => "object"
  end.

(** [Array.isArray]. *)
Definition Array_isArray (v : value) : bool :=
  match v with
  | VArray _ => true
  | _ => false
  end.

(** [v === undefined]. *)
Definition is_undefined (v : value) : bool :=
  match v with
  | VUndefined => true
  | _ => false
  end.

(** [ToBoolean], the test of [c ? a : b]: [undefined], the empty string,
    [+0], [-0] and [NaN] are falsy; every object is truthy. *)
Definition ToBoolean (v : value) : bool :=
  match v with
  | VUndefined => false
  | VString s => negb (s =? "")
  | VNumber NaN => false
  | VNumber (Zero _) => false
  | VNumber _ => true
  | VArray _ | VColumn _ | VSQL _ => true
  end.

(** The method call [receiver.join(separator)]: only arrays have a [join]. *)
Definition join (receiver : value) (separator : string) : completion value :=
  match receiver with
  | VArray elements => Normal (VString (Array_join elements separator))
  | _ => Throw (TypeError "join is not a function")
  end.

(** The [i]-th positional parameter of a call on the argument list [args]:
    a parameter beyond the arguments passed is [undefined]. *)
Definition parameter (i : nat) (args : list value) : value :=
  nth i args VUndefined.

(** An optional trailing number, as the callee sees it. *)
Definition optional (x : option number) : value :=
  match x with
  | Some n => VNumber n
  | None => VUndefined
  end.

End Values.

(** ** The builders

    A tagged template [sql`a${x}b${y}c`] is the call
    [sql(["a"; "b"; "c"], x, y)].  The tag [sql] lives in [../sql.ts] and is
    a parameter here: any function from the template strings and the
    interpolated values to a fragment or a failure. *)

Section Builders.

Context {SQL AnyPgColumn : Type}.

Local Abbreviation value := (value SQL AnyPgColumn).

Variable sql : list string -> list value -> completion SQL.

Definition to_tsvector (arg1 arg2 : value) : completion SQL :=
  if ToBoolean arg2
  then sql ["to_tsvector("; ", "; ")"] [arg1; arg2]
  else sql ["to_tsvector("; ")"] [arg1].

Definition to_tsquery (arg1 arg2 : value) : completion SQL :=
  if ToBoolean arg2
  then sql ["to_tsquery("; ", "; ")"] [arg1; arg2]
  else sql ["to_tsquery("; ")"] [arg1].

Definition plainto_tsquery (arg1 arg2 : value) : completion SQL :=
  if ToBoolean arg2
  then sql ["plainto_tsquery("; ", "; ")"] [arg1; arg2]
  else sql ["plainto_tsquery("; ")"] [arg1].

Definition phraseto_tsquery (arg1 arg2 : value) : completion SQL :=
  if ToBoolean arg2
  then sql ["phraseto_tsquery("; ", "; ")"] [arg1; arg2]
  else sql ["phraseto_tsquery("; ")"] [arg1].

Definition websearch_to_tsquery (arg1 arg2 : value) : completion SQL :=
  if ToBoolean arg2
  then sql ["websearch_to_tsquery("; ", "; ")"] [arg1; arg2]
  else sql ["websearch_to_tsquery("; ")"] [arg1].

Definition ts_rank (arg1 arg2 arg3 arg4 : value) : completion SQL :=
  if Array_isArray arg1 && negb (typeof arg2 =? "number")
     && negb (is_undefined arg3)
  then
    if ToBoolean arg4
    then
      joined <- join arg1 "," ;;
      sql ["ts_rank(string_to_array("; ", ',')::float4[], "; ", "; ", "; ")"]
          [joined; arg2; arg3; arg4]
    else
      joined <- join arg1 "," ;;
      sql ["ts_rank(string_to_array("; ", ',')::float4[], "; ", "; ")"]
          [joined; arg2; arg3]
  else
    if ToBoolean arg3
    then sql ["ts_rank("; ", "; ", "; ")"] [arg1; arg2; arg3]
    else sql ["ts_rank("; ", "; ")"] [arg1; arg2].

Definition ts_rank_cd (arg1 arg2 arg3 arg4 : value) : completion SQL :=
  if Array_isArray arg1 && negb (typeof arg2 =? "number")
     && negb (is_undefined arg3)
  then
    if ToBoolean arg4
    then
      joined <- join arg1 "," ;;
      sql ["ts_rank_cd(string_to_array("; ", ',')::float4[], "; ", "; ", "; ")"]
          [joined; arg2; arg3; arg4]
    else
      joined <- join arg1 "," ;;
      sql ["ts_rank_cd(string_to_array("; ", ',')::float4[], "; ", "; ")"]
          [joined; arg2; arg3]
  else
    if ToBoolean arg3
    then sql ["ts_rank_cd("; ", "; ", "; ")"] [arg1; arg2; arg3]
    else sql ["ts_rank_cd("; ", "; ")"] [arg1; arg2].

Definition setweight (vector : SQL) (weight : Weight) : completion SQL :=
  sql ["setweight("; ", "; ")"] [VSQL vector; VString (Weight_string weight)].

End Builders.

(** ** Fragments

    Modelled from the spec: the fragment type [SQL] and its constructor [sql]
    are declared in [../sql.ts], which is not part of the sources at hand.
    The spec asks of them one thing: a fragment is built from a template with
    interpolation slots and keeps the binding of every interpolated value to
    its slot.  A fragment is therefore the template strings together with the
    values bound between them, in order; a value may itself be a fragment. *)

#[local] Unset Elimination Schemes.

Inductive Fragment (AnyPgColumn : Type) : Type :=
| mkFragment (strings : list string)
             (params : list (value (Fragment AnyPgColumn) AnyPgColumn)).

#[local] Set Elimination Schemes.

Arguments mkFragment {AnyPgColumn} strings params.

Section Fragments.

Context {AnyPgColumn : Type}.

Local Abbreviation value := (value (Fragment AnyPgColumn) AnyPgColumn).

Definition strings (f : Fragment AnyPgColumn) : list string :=
  match f with
  | mkFragment s _ => s
  end.

Definition params (f : Fragment AnyPgColumn) : list value :=
  match f with
  | mkFragment _ p => p
  end.

(** Modelled from the spec: the composer that always succeeds and records
    exactly what it was called with. *)
Definition compose (s : list string) (p : list value)
  : completion (Fragment AnyPgColumn) :=
  Normal (mkFragment s p).

(** The fixed SQL text of a fragment, every interpolation slot shown as [?]. *)
Definition template_text (f : Fragment AnyPgColumn) : string :=
  String.concat "?" (strings f).

(** What a caller can observe of a built fragment: its text and the values
    bound to its slots, left to right. *)
Definition rendered (c : completion (Fragment AnyPgColumn))
  : completion (string * list value) :=
  f <- c ;; Normal (template_text f, params f).

(** [contains needle text]: [needle] occurs in [text]. *)
Definition contains (needle text : string) : bool :=
  match index 0 needle text with
  | Some _ => true
  | None => false
  end.

(** The weights segment of a ranking fragment is the array cast
    [string_to_array(?, ',')::float4[]]. *)
Definition has_weights_segment (f : Fragment AnyPgColumn) : bool :=
  contains "string_to_array(?, ',')::float4[]" (template_text f).

(** The reading of "embedded as literal text, not as a bound parameter":
    the joined weights occur in the fixed text and are bound to no slot. *)
Definition weights_embedded_as_literal
  (weights : list number) (f : Fragment AnyPgColumn) : Prop :=
  contains (Array_join weights ",") (template_text f) = true
  /\ ~ In (VString (Array_join weights ",")) (params f).

(** The slot and the binding a trailing normalization argument contributes:
    both are there exactly when the argument is truthy. *)
Definition normalization_slot (arg : value) : string :=
  if ToBoolean arg then ", ?)" else ")".

Definition normalization_binding (arg : value) : list value :=
  if ToBoolean arg then [arg] else [].

End Fragments.

(** A template call is well formed when there is one more template string
    than there are bound values: every slot lies between two strings. *)
Definition slots_match {AnyPgColumn : Type} (f : Fragment AnyPgColumn) : bool :=
  Nat.eqb (List.length (strings f)) (S (List.length (params f))).

(** [has_comma text]: the separator of the weights occurs in [text]. *)
Fixpoint has_comma (text : string) : bool :=
  match text with
  | EmptyString => false
  | String c rest => Ascii.eqb c "," || has_comma rest
  end.

(** The fields of a text, cut at its commas: what the receiving
    [string_to_array(?, ',')] gets to see of a joined array. *)
Fixpoint fields (text : string) : list string :=
  match text with
  | EmptyString => [""]
  | String c rest =>
      if Ascii.eqb c "," then "" :: fields rest
      else
        match fields rest with
        | field :: others => String c field :: others
        | [] => [String c ""]
        end
  end.

(** Sample arguments over columns named by strings. *)
Definition sample_value : Type := value (Fragment string) string.

Definition sample_vector : Fragment string :=
  mkFragment ["to_tsvector("; ", "; ")"] [VString "english"; VColumn "title"].

Definition sample_query : Fragment string :=
  mkFragment ["to_tsquery("; ", "; ")"] [VString "english"; VString "Drizzle"].

Definition sample_weights : list number :=
  [num_0_1; num_0_2; num_0_4; num_0_3].

Definition sample_rank : Fragment string :=
  mkFragment ["ts_rank(string_to_array("; ", ',')::float4[], "; ", "; ")"]
    [VString "0.1,0.2,0.4,0.3"; VSQL sample_vector; VSQL sample_query].

(** ** Sample evaluations *)

Example join_weights :
  Array_join [num_0_1; num_0_2; num_0_4; num_0_3] "," = "0.1,0.2,0.4,0.3".
Proof. reflexivity. Qed.

Example toString_samples :
  map Number_toString
    [num_0; num_1; num_32; Finite true 25 0; Finite false 15 1;
     Finite false 1 22; Finite false 12 (-6); Finite false 1 3]
  = ["0"; "1"; "32"; "-0.25"; "1.5"; "1e+21"; "1.2e-7"; "100"].
Proof. reflexivity. Qed.

Example sample_vector_built :
  to_tsvector compose (VString "english") (VColumn "title")
  = Normal sample_vector.
Proof. reflexivity. Qed.

Example sample_query_built :
  to_tsquery compose (VString "english") (VString "Drizzle")
  = Normal sample_query.
Proof. reflexivity. Qed.

Example sample_rank_rendered :
  rendered (ts_rank compose (VArray sample_weights) (VSQL sample_vector)
              (VSQL sample_query) (VNumber num_32))
  = Normal ("ts_rank(string_to_array(?, ',')::float4[], ?, ?, ?)",
            [VString "0.1,0.2,0.4,0.3"; VSQL sample_vector; VSQL sample_query;
             VNumber num_32]).
Proof. reflexivity. Qed.

(** ** Properties that hold for every composer *)

Section AnyComposer.

Context {SQL AnyPgColumn : Type}.

Local Abbreviation value := (value SQL AnyPgColumn).

Variable sql : list string -> list value -> completion SQL.

(** Under the guard [Array.isArray(arg1)] the call [arg1.join(',')] returns. *)
Lemma join_of_array (v : value) (separator : string) :
  Array_isArray v = true ->
  exists elements,
    v = VArray elements
    /\ join v separator = Normal (VString (Array_join elements separator)).
Proof.
  destruct v; simpl; intros guard; try discriminate guard.
  exists elements. split; reflexivity.
Qed.

(** When no argument is passed as an explicit [undefined], the third
    parameter is present exactly in the calls with at least three arguments. *)
Lemma third_parameter_present (args : list value) :
  Forall (fun v => v <> VUndefined) args ->
  parameter 2 args <> VUndefined <-> 3 <= List.length args.
Proof.
  intros actual.
  destruct args as [ | a1 [ | a2 [ | a3 rest ] ] ]; simpl;
    try (split; [intros present; contradiction | lia]).
  split; [lia | intros _].
  inversion actual as [ | ? ? _ actual1 ]; subst.
  inversion actual1 as [ | ? ? _ actual2 ]; subst.
  inversion actual2 as [ | ? ? present _ ]; subst.
  exact present.
Qed.

(** A truthy second argument selects the two-slot template, with the first
    argument bound as configuration and the second as payload. *)
Lemma configured_call_two_slots (arg1 arg2 : value) :
  ToBoolean arg2 = true ->
  to_tsvector sql arg1 arg2 = sql ["to_tsvector("; ", "; ")"] [arg1; arg2]
  /\ to_tsquery sql arg1 arg2 = sql ["to_tsquery("; ", "; ")"] [arg1; arg2]
  /\ plainto_tsquery sql arg1 arg2
     = sql ["plainto_tsquery("; ", "; ")"] [arg1; arg2]
  /\ phraseto_tsquery sql arg1 arg2
     = sql ["phraseto_tsquery("; ", "; ")"] [arg1; arg2]
  /\ websearch_to_tsquery sql arg1 arg2
     = sql ["websearch_to_tsquery("; ", "; ")"] [arg1; arg2].
Proof.
  intros truthy.
  unfold to_tsvector, to_tsquery, plainto_tsquery, phraseto_tsquery,
    websearch_to_tsquery.
  rewrite truthy. repeat split; reflexivity.
Qed.

(** A non-empty string is truthy. *)
Lemma nonempty_string_truthy (s : string) :
  s <> "" -> ToBoolean (VString s : value) = true.
Proof.
  intros nonempty. simpl. destruct (String.eqb_spec s ""); [contradiction | reflexivity].
Qed.

(** C4: a ranking call with exactly two arguments whose first argument is an
    array of numbers is not treated as a weights call.  Both [ts_rank] and
    [ts_rank_cd] hand the composer the two-slot template with the array bound
    to the first (vector) slot and the second argument to the second, so the
    outcome of the call, failure included, is the composer's outcome on that
    interpolation. *)
Theorem two_argument_rank_has_no_weights
  (weights : list number) (arg2 : value) :
  ts_rank sql (VArray weights) arg2 VUndefined VUndefined
  = sql ["ts_rank("; ", "; ")"] [VArray weights; arg2]
  /\ ts_rank_cd sql (VArray weights) arg2 VUndefined VUndefined
     = sql ["ts_rank_cd("; ", "; ")"] [VArray weights; arg2].
Proof.
  unfold ts_rank, ts_rank_cd. simpl.
  rewrite !andb_false_r. split; reflexivity.
Qed.

(** C5, at the input where it fails: with a configuration and the empty
    string as payload, each of the five builders with an optional
    configuration takes the one-slot template and binds the configuration to
    the payload slot; the call is indistinguishable from the one-argument
    call on the configuration alone. *)
Theorem empty_payload_loses_configuration (configuration : string) :
  (to_tsvector sql (VString configuration) (VString "")
   = sql ["to_tsvector("; ")"] [VString configuration]
   /\ to_tsvector sql (VString configuration) (VString "")
      = to_tsvector sql (VString configuration) VUndefined)
  /\ (to_tsquery sql (VString configuration) (VString "")
      = sql ["to_tsquery("; ")"] [VString configuration]
      /\ to_tsquery sql (VString configuration) (VString "")
         = to_tsquery sql (VString configuration) VUndefined)
  /\ (plainto_tsquery sql (VString configuration) (VString "")
      = sql ["plainto_tsquery("; ")"] [VString configuration]
      /\ plainto_tsquery sql (VString configuration) (VString "")
         = plainto_tsquery sql (VString configuration) VUndefined)
  /\ (phraseto_tsquery sql (VString configuration) (VString "")
      = sql ["phraseto_tsquery("; ")"] [VString configuration]
      /\ phraseto_tsquery sql (VString configuration) (VString "")
         = phraseto_tsquery sql (VString configuration) VUndefined)
  /\ (websearch_to_tsquery sql (VString configuration) (VString "")
      = sql ["websearch_to_tsquery("; ")"] [VString configuration]
      /\ websearch_to_tsquery sql (VString configuration) (VString "")
         = websearch_to_tsquery sql (VString configuration) VUndefined).
Proof.
  repeat split; reflexivity.
Qed.

(** C6: every builder is a total function of its arguments, and what it
    returns is exactly what the composer returns on one template call: on no
    argument tuple, well shaped or not, does a builder raise an error of its
    own, so a failure can only be the composer's. *)
Theorem builders_fail_only_in_composer
  (arg1 arg2 arg3 arg4 : value) (vector : SQL) (weight : Weight) :
  (exists s p, to_tsvector sql arg1 arg2 = sql s p)
  /\ (exists s p, to_tsquery sql arg1 arg2 = sql s p)
  /\ (exists s p, plainto_tsquery sql arg1 arg2 = sql s p)
  /\ (exists s p, phraseto_tsquery sql arg1 arg2 = sql s p)
  /\ (exists s p, websearch_to_tsquery sql arg1 arg2 = sql s p)
  /\ (exists s p, ts_rank sql arg1 arg2 arg3 arg4 = sql s p)
  /\ (exists s p, ts_rank_cd sql arg1 arg2 arg3 arg4 = sql s p)
  /\ (exists s p, setweight sql vector weight = sql s p).
Proof.
  repeat split.
  1-5: unfold to_tsvector, to_tsquery, plainto_tsquery, phraseto_tsquery,
         websearch_to_tsquery;
       destruct (ToBoolean arg2); eexists; eexists; reflexivity.
  3: unfold setweight; eexists; eexists; reflexivity.
  all: unfold ts_rank, ts_rank_cd;
       destruct (Array_isArray arg1) eqn:guard; simpl;
       [ destruct (join_of_array arg1 "," guard) as (elements & -> & joined);
         simpl;
         destruct (negb (typeof arg2 =? "number") && negb (is_undefined arg3))
       | ];
       destruct (ToBoolean arg3); destruct (ToBoolean arg4);
       eexists; eexists; reflexivity.
Qed.

End AnyComposer.

(** ** Properties of the built fragments *)

Section BuiltFragments.

Context {AnyPgColumn : Type}.

Local Abbreviation SQL := (Fragment AnyPgColumn).
Local Abbreviation value := (value (Fragment AnyPgColumn) AnyPgColumn).

(** The fragment of a call that took the weights path. *)
Lemma ts_rank_weights_path
  (weights : list number) (arg2 arg3 arg4 : value) :
  typeof arg2 <> "number" -> arg3 <> VUndefined ->
  rendered (ts_rank compose (VArray weights) arg2 arg3 arg4)
  = Normal ("ts_rank(string_to_array(?, ',')::float4[], ?, ?"
              ++ normalization_slot arg4,
            VString (Array_join weights ",") :: arg2 :: arg3
              :: normalization_binding arg4).
Proof.
  intros not_number present.
  unfold ts_rank, normalization_slot, normalization_binding.
  destruct arg2; try (exfalso; apply not_number; reflexivity);
    (destruct arg3; try (exfalso; apply present; reflexivity));
    destruct (ToBoolean arg4); reflexivity.
Qed.

Lemma ts_rank_cd_weights_path
  (weights : list number) (arg2 arg3 arg4 : value) :
  typeof arg2 <> "number" -> arg3 <> VUndefined ->
  rendered (ts_rank_cd compose (VArray weights) arg2 arg3 arg4)
  = Normal ("ts_rank_cd(string_to_array(?, ',')::float4[], ?, ?"
              ++ normalization_slot arg4,
            VString (Array_join weights ",") :: arg2 :: arg3
              :: normalization_binding arg4).
Proof.
  intros not_number present.
  unfold ts_rank_cd, normalization_slot, normalization_binding.
  destruct arg2; try (exfalso; apply not_number; reflexivity);
    (destruct arg3; try (exfalso; apply present; reflexivity));
    destruct (ToBoolean arg4); reflexivity.
Qed.

(** C1, at the input where it fails: a normalization of [0] is dropped.
    With or without weights, [ts_rank] and [ts_rank_cd] called with the
    number 0 as trailing normalization build the fragment without the
    normalization slot, the same fragment as when the argument is omitted. *)
Theorem zero_normalization_is_dropped
  (weights : list number) (vector query : SQL) :
  (rendered (ts_rank compose (VSQL vector) (VSQL query) (VNumber num_0)
               VUndefined)
   = Normal ("ts_rank(?, ?)", [VSQL vector; VSQL query])
   /\ rendered (ts_rank compose (VArray weights) (VSQL vector) (VSQL query)
                  (VNumber num_0))
      = Normal ("ts_rank(string_to_array(?, ',')::float4[], ?, ?)",
                [VString (Array_join weights ","); VSQL vector; VSQL query]))
  /\ (rendered (ts_rank_cd compose (VSQL vector) (VSQL query) (VNumber num_0)
                  VUndefined)
      = Normal ("ts_rank_cd(?, ?)", [VSQL vector; VSQL query])
      /\ rendered (ts_rank_cd compose (VArray weights) (VSQL vector)
                     (VSQL query) (VNumber num_0))
         = Normal ("ts_rank_cd(string_to_array(?, ',')::float4[], ?, ?)",
                   [VString (Array_join weights ","); VSQL vector;
                    VSQL query]))
  /\ ts_rank compose (VSQL vector) (VSQL query) (VNumber num_0) VUndefined
     = ts_rank compose (VSQL vector) (VSQL query) VUndefined VUndefined
  /\ ts_rank compose (VArray weights) (VSQL vector) (VSQL query)
       (VNumber num_0)
     = ts_rank compose (VArray weights) (VSQL vector) (VSQL query) VUndefined.
Proof.
  repeat split; reflexivity.
Qed.

(** C2: for every weights array [w], [ts_rank(w, vector, query)] and
    [ts_rank_cd(w, vector, query)] bind the elements of [w] joined with
    commas to the slot of a [string_to_array(?, ',')::float4[]] cast that
    comes before the vector and query slots; and when the weights are
    omitted, whatever the optional normalization, the fragment has no weights
    segment: its text is the plain two- or three-slot call and its bindings
    start with the vector and the query. *)
Theorem weights_rendered_as_float4_cast
  (w : list number) (vector query : SQL) (normalization : option number) :
  rendered (ts_rank compose (VArray w) (VSQL vector) (VSQL query) VUndefined)
  = Normal ("ts_rank(string_to_array(?, ',')::float4[], ?, ?)",
            [VString (Array_join w ","); VSQL vector; VSQL query])
  /\ rendered (ts_rank_cd compose (VArray w) (VSQL vector) (VSQL query)
                 VUndefined)
     = Normal ("ts_rank_cd(string_to_array(?, ',')::float4[], ?, ?)",
               [VString (Array_join w ","); VSQL vector; VSQL query])
  /\ (exists f,
        ts_rank compose (VSQL vector) (VSQL query) (optional normalization)
          VUndefined = Normal f
        /\ has_weights_segment f = false
        /\ template_text f
           = "ts_rank(?, ?" ++ normalization_slot (optional normalization : value)
        /\ params f
           = VSQL vector :: VSQL query
               :: normalization_binding (optional normalization : value))
  /\ (exists f,
        ts_rank_cd compose (VSQL vector) (VSQL query) (optional normalization)
          VUndefined = Normal f
        /\ has_weights_segment f = false
        /\ template_text f
           = "ts_rank_cd(?, ?" ++ normalization_slot (optional normalization : value)
        /\ params f
           = VSQL vector :: VSQL query
               :: normalization_binding (optional normalization : value)).
Proof.
  split; [reflexivity | split; [reflexivity | ]].
  unfold ts_rank, ts_rank_cd, normalization_slot, normalization_binding.
  split; simpl;
    destruct (ToBoolean (optional normalization : value));
    eexists; repeat split; reflexivity.
Qed.

(** The guard of the ranking builders, read as a proposition. *)
Lemma weights_guard_spec (arg1 arg2 arg3 : value) :
  Array_isArray arg1 && negb (typeof arg2 =? "number")
    && negb (is_undefined arg3) = true
  <-> (exists w, arg1 = VArray w)
      /\ arg3 <> VUndefined
      /\ typeof arg2 <> "number".
Proof.
  rewrite !andb_true_iff, !negb_true_iff. split.
  - intros [[is_array not_number] present]. repeat split.
    + destruct arg1; try discriminate is_array. eexists; reflexivity.
    + intros ->. discriminate present.
    + intros is_number. rewrite is_number in not_number.
      discriminate not_number.
  - intros ((w & ->) & present & not_number). repeat split.
    + destruct (String.eqb_spec (typeof arg2) "number");
        [contradiction | reflexivity].
    + destruct arg3; try reflexivity. contradiction.
Qed.

(** C3: [ts_rank] and [ts_rank_cd] treat their first argument as weights
    exactly when it is an array, a third argument is present (not
    [undefined]) and the second argument is not of type number.  Both apply
    the same rule: their fragments carry the same bindings and agree on
    having a weights segment.  When the rule fires, the joined weights come
    first and the remaining arguments move one slot to the right: the second
    is bound to the vector slot, the third to the query slot and the fourth,
    when rendered, to the normalization slot. *)
Theorem weights_classification (arg1 arg2 arg3 arg4 : value) :
  exists f g,
    ts_rank compose arg1 arg2 arg3 arg4 = Normal f
    /\ ts_rank_cd compose arg1 arg2 arg3 arg4 = Normal g
    /\ (has_weights_segment f = true
        <-> (exists w, arg1 = VArray w)
            /\ arg3 <> VUndefined
            /\ typeof arg2 <> "number")
    /\ has_weights_segment g = has_weights_segment f
    /\ params g = params f
    /\ (has_weights_segment f = true ->
        exists w,
          arg1 = VArray w
          /\ template_text f
             = "ts_rank(string_to_array(?, ',')::float4[], ?, ?"
                 ++ normalization_slot arg4
          /\ template_text g
             = "ts_rank_cd(string_to_array(?, ',')::float4[], ?, ?"
                 ++ normalization_slot arg4
          /\ params f
             = VString (Array_join w ",") :: arg2 :: arg3
                 :: normalization_binding arg4).
Proof.
  pose proof (weights_guard_spec arg1 arg2 arg3) as guard_spec.
  unfold ts_rank, ts_rank_cd, normalization_slot, normalization_binding.
  destruct (Array_isArray arg1 && negb (typeof arg2 =? "number")
            && negb (is_undefined arg3)).
  - destruct (proj1 guard_spec eq_refl) as ((w & ->) & _ & _).
    cbn [join bind].
    destruct (ToBoolean arg4);
      (eexists; eexists; repeat split;
       solve [ reflexivity | tauto | eexists; repeat split; reflexivity ]).
  - assert (no_weights :
              ~ ((exists w, arg1 = VArray w)
                 /\ arg3 <> VUndefined /\ typeof arg2 <> "number")).
    { intros yes. apply guard_spec in yes. discriminate yes. }
    destruct (ToBoolean arg3);
      (eexists; eexists;
       split; [reflexivity | split; [reflexivity | ]];
       split; [ split; [intros segment; discriminate segment | tauto ] | ];
       split; [reflexivity | split; [reflexivity | ]];
       intros segment; discriminate segment).
Qed.

(** C7, amended: on the weights path of [ts_rank] and [ts_rank_cd] the
    comma-joined weights are a bound value of the fragment, the string bound
    to its first slot (the argument of [string_to_array]); the fixed text of
    the fragment does not depend on the weights. *)
Theorem joined_weights_are_first_binding
  (w : list number) (vector query : SQL) (normalization : option number) :
  rendered (ts_rank compose (VArray w) (VSQL vector) (VSQL query)
              (optional normalization))
  = Normal ("ts_rank(string_to_array(?, ',')::float4[], ?, ?"
              ++ normalization_slot (optional normalization : value),
            VString (Array_join w ",") :: VSQL vector :: VSQL query
              :: normalization_binding (optional normalization))
  /\ rendered (ts_rank_cd compose (VArray w) (VSQL vector) (VSQL query)
                 (optional normalization))
     = Normal ("ts_rank_cd(string_to_array(?, ',')::float4[], ?, ?"
                 ++ normalization_slot (optional normalization : value),
               VString (Array_join w ",") :: VSQL vector :: VSQL query
                 :: normalization_binding (optional normalization)).
Proof.
  split;
    [apply ts_rank_weights_path | apply ts_rank_cd_weights_path];
    discriminate.
Qed.

(** C8: the builders are deterministic.  The fragment composer is the only
    thing a builder calls, and the composer met by one call ([sql1]) need not
    behave like the composer met by the next ([sql2]).  Whatever the two do,
    two calls of one builder on the same argument tuple hand them the same
    template and the same bindings, those of the fragment [f] that the
    recording composer builds: the text and the bindings of the result are
    fixed by the arguments alone, and no builder branches on anything else,
    the outcome of the composer included. *)
Theorem builders_depend_only_on_arguments
  (sql1 sql2 : list string -> list value -> completion SQL)
  (arg1 arg2 arg3 arg4 : value) (vector : SQL) (weight : Weight) :
  (exists f,
     to_tsvector compose arg1 arg2 = Normal f
     /\ to_tsvector sql1 arg1 arg2 = sql1 (strings f) (params f)
     /\ to_tsvector sql2 arg1 arg2 = sql2 (strings f) (params f))
  /\ (exists f,
        to_tsquery compose arg1 arg2 = Normal f
        /\ to_tsquery sql1 arg1 arg2 = sql1 (strings f) (params f)
        /\ to_tsquery sql2 arg1 arg2 = sql2 (strings f) (params f))
  /\ (exists f,
        plainto_tsquery compose arg1 arg2 = Normal f
        /\ plainto_tsquery sql1 arg1 arg2 = sql1 (strings f) (params f)
        /\ plainto_tsquery sql2 arg1 arg2 = sql2 (strings f) (params f))
  /\ (exists f,
        phraseto_tsquery compose arg1 arg2 = Normal f
        /\ phraseto_tsquery sql1 arg1 arg2 = sql1 (strings f) (params f)
        /\ phraseto_tsquery sql2 arg1 arg2 = sql2 (strings f) (params f))
  /\ (exists f,
        websearch_to_tsquery compose arg1 arg2 = Normal f
        /\ websearch_to_tsquery sql1 arg1 arg2 = sql1 (strings f) (params f)
        /\ websearch_to_tsquery sql2 arg1 arg2
           = sql2 (strings f) (params f))
  /\ (exists f,
        ts_rank compose arg1 arg2 arg3 arg4 = Normal f
        /\ ts_rank sql1 arg1 arg2 arg3 arg4 = sql1 (strings f) (params f)
        /\ ts_rank sql2 arg1 arg2 arg3 arg4 = sql2 (strings f) (params f))
  /\ (exists f,
        ts_rank_cd compose arg1 arg2 arg3 arg4 = Normal f
        /\ ts_rank_cd sql1 arg1 arg2 arg3 arg4 = sql1 (strings f) (params f)
        /\ ts_rank_cd sql2 arg1 arg2 arg3 arg4
           = sql2 (strings f) (params f))
  /\ (exists f,
        setweight compose vector weight = Normal f
        /\ setweight sql1 vector weight = sql1 (strings f) (params f)
        /\ setweight sql2 vector weight = sql2 (strings f) (params f)).
Proof.
  pose proof (weights_guard_spec arg1 arg2 arg3) as guard_spec.
  unfold to_tsvector, to_tsquery, plainto_tsquery, phraseto_tsquery,
    websearch_to_tsquery, ts_rank, ts_rank_cd, setweight.
  destruct (Array_isArray arg1 && negb (typeof arg2 =? "number")
            && negb (is_undefined arg3)).
  - destruct (proj1 guard_spec eq_refl) as ((w & ->) & _ & _).
    cbn [join bind].
    destruct (ToBoolean arg2); destruct (ToBoolean arg4);
      repeat split; eexists; repeat split; reflexivity.
  - destruct (ToBoolean arg2); destruct (ToBoolean arg3);
      repeat split; eexists; repeat split; reflexivity.
Qed.

(** C9: [setweight(vector, label)] always builds the two-slot fragment
    [setweight(?, ?)] with the vector bound first and the label second; the
    builder has one call shape and inspects neither argument. *)
Theorem setweight_fixed_template (vector : SQL) (weight : Weight) :
  rendered (setweight compose vector weight)
  = Normal ("setweight(?, ?)",
            [VSQL vector; VString (Weight_string weight)]).
Proof.
  reflexivity.
Qed.

(** C10: an empty weights array is still a weights argument.  With a vector
    and a query, and with or without a normalization, [ts_rank([], ...)] and
    [ts_rank_cd([], ...)] build the fragment with the weights segment, whose
    slot is bound to the empty string. *)
Theorem empty_weights_are_weights
  (vector query : SQL) (normalization : option number) :
  exists f g,
    ts_rank compose (VArray []) (VSQL vector) (VSQL query)
      (optional normalization) = Normal f
    /\ ts_rank_cd compose (VArray []) (VSQL vector) (VSQL query)
         (optional normalization) = Normal g
    /\ has_weights_segment f = true
    /\ has_weights_segment g = true
    /\ template_text f
       = "ts_rank(string_to_array(?, ',')::float4[], ?, ?"
           ++ normalization_slot (optional normalization : value)
    /\ template_text g
       = "ts_rank_cd(string_to_array(?, ',')::float4[], ?, ?"
           ++ normalization_slot (optional normalization : value)
    /\ params f
       = VString "" :: VSQL vector :: VSQL query
           :: normalization_binding (optional normalization)
    /\ params g = params f.
Proof.
  unfold ts_rank, ts_rank_cd, normalization_slot, normalization_binding.
  cbn [Array_isArray typeof is_undefined join bind andb negb
       String.eqb Ascii.eqb Bool.eqb].
  destruct (ToBoolean (optional normalization : value));
    eexists; eexists; repeat split; reflexivity.
Qed.

End BuiltFragments.

(** ** The statements at concrete calls *)

(** C7 as stated fails at [ts_rank([0.1, 0.2, 0.4, 0.3], vector, query)]:
    the text [0.1,0.2,0.4,0.3] is nowhere in the fixed text of the fragment
    and is bound to its first slot. *)
Lemma sample_weights_not_literal :
  ts_rank compose (VArray sample_weights) (VSQL sample_vector)
    (VSQL sample_query) VUndefined = Normal sample_rank
  /\ ~ weights_embedded_as_literal sample_weights sample_rank.
Proof.
  split; [reflexivity | ].
  intros [in_text _]. vm_compute in in_text. discriminate in_text.
Qed.

(** ** The joined weights *)

Lemma has_comma_app (a b : string) :
  has_comma (a ++ b) = has_comma a || has_comma b.
Proof.
  induction a as [ | c a IH ]; simpl; [reflexivity | ].
  rewrite IH. apply orb_assoc.
Qed.

Lemma has_comma_substring (text : string) :
  has_comma text = false ->
  forall start count, has_comma (substring start count text) = false.
Proof.
  induction text as [ | c text IH ]; intros clean start count.
  - destruct start, count; reflexivity.
  - simpl in clean. apply orb_false_iff in clean as [head tail].
    destruct start as [ | start ]; destruct count as [ | count ]; simpl;
      try reflexivity.
    + rewrite head. simpl. apply IH. exact tail.
    + apply IH. exact tail.
    + apply IH. exact tail.
Qed.

Lemma has_comma_zeros (count : nat) : has_comma (zeros count) = false.
Proof.
  induction count as [ | count IH ]; simpl; [reflexivity | exact IH].
Qed.

Lemma has_comma_uint (u : Decimal.uint) :
  has_comma (NilEmpty.string_of_uint u) = false.
Proof.
  induction u; simpl; auto.
Qed.

Lemma has_comma_digits (s : positive) : has_comma (digits s) = false.
Proof.
  apply has_comma_uint.
Qed.

(** No number prints with a comma. *)
Lemma Number_toString_comma_free (x : number) :
  has_comma (Number_toString x) = false.
Proof.
  destruct x as [ | negative | negative | negative s n ]; simpl;
    try reflexivity.
  - destruct negative; reflexivity.
  - rewrite has_comma_app.
    assert (has_comma (sign_prefix negative) = false) as ->
      by (destruct negative; reflexivity).
    simpl.
    repeat match goal with
           | |- context [if ?b then _ else _] => destruct b
           end;
      repeat first
        [ rewrite has_comma_app
        | rewrite has_comma_digits
        | rewrite has_comma_zeros
        | rewrite (has_comma_substring _ (has_comma_digits s))
        | progress cbn [has_comma append Ascii.eqb Bool.eqb orb] ];
      reflexivity.
Qed.

Lemma fields_comma_free (text : string) :
  has_comma text = false -> fields text = [text].
Proof.
  induction text as [ | c text IH ]; simpl; [reflexivity | ].
  intros clean. apply orb_false_iff in clean as [head tail].
  rewrite head, (IH tail). reflexivity.
Qed.

Lemma fields_app (first rest : string) :
  has_comma first = false ->
  fields (first ++ "," ++ rest) = first :: fields rest.
Proof.
  induction first as [ | c first IH ]; simpl; [reflexivity | ].
  intros clean. apply orb_false_iff in clean as [head tail].
  rewrite head. simpl in IH. rewrite (IH tail). reflexivity.
Qed.

(** Cutting a joined non-empty array at its commas gives back the printed
    elements, one field per element. *)
Lemma fields_of_join (x : number) (others : list number) :
  fields (Array_join (x :: others) ",")
  = map Number_toString (x :: others).
Proof.
  revert x. induction others as [ | y others IH ]; intros x.
  - simpl. apply fields_comma_free, Number_toString_comma_free.
  - change (Array_join (x :: y :: others) ",")
      with (Number_toString x ++ "," ++ Array_join (y :: others) ",").
    rewrite fields_app by apply Number_toString_comma_free.
    rewrite IH. reflexivity.
Qed.

(** ** What the plain path leaves out *)

Section PlainPath.

Context {SQL AnyPgColumn : Type}.

Local Abbreviation value := (value SQL AnyPgColumn).

Variable sql : list string -> list value -> completion SQL.

(** X4: when the first argument is not taken as weights (it is no array,
    or the second argument is a number, or the third is missing), [ts_rank]
    and [ts_rank_cd] never look at the fourth argument: whatever it is, the
    call is the call without it. *)
Theorem plain_rank_ignores_fourth_argument (arg1 arg2 arg3 arg4 : value) :
  Array_isArray arg1 = false \/ typeof arg2 = "number" \/ arg3 = VUndefined ->
  ts_rank sql arg1 arg2 arg3 arg4 = ts_rank sql arg1 arg2 arg3 VUndefined
  /\ ts_rank_cd sql arg1 arg2 arg3 arg4
     = ts_rank_cd sql arg1 arg2 arg3 VUndefined.
Proof.
  intros plain. unfold ts_rank, ts_rank_cd.
  assert (Array_isArray arg1 && negb (typeof arg2 =? "number")
          && negb (is_undefined arg3) = false) as ->.
  { destruct plain as [no_array | [is_number | ->]].
    - rewrite no_array. reflexivity.
    - rewrite is_number. simpl. rewrite andb_false_r. reflexivity.
    - simpl. apply andb_false_r. }
  split; reflexivity.
Qed.

End PlainPath.

(** ** Shape of every built fragment *)

Section Shapes.

Context {AnyPgColumn : Type}.

Local Abbreviation SQL := (Fragment AnyPgColumn).
Local Abbreviation value := (value (Fragment AnyPgColumn) AnyPgColumn).

(** X1: whatever the two arguments are, each of the five builders with an
    optional configuration builds a well-formed fragment whose text is one of
    two constant texts and whose bindings are the first argument alone or the
    two arguments in call order: no argument reaches the SQL text, none is
    duplicated or reordered. *)
Theorem configured_builders_shape (arg1 arg2 : value) :
  (exists f,
     to_tsvector compose arg1 arg2 = Normal f
     /\ slots_match f = true
     /\ In (template_text f) ["to_tsvector(?)"; "to_tsvector(?, ?)"]
     /\ (params f = [arg1] \/ params f = [arg1; arg2]))
  /\ (exists f,
        to_tsquery compose arg1 arg2 = Normal f
        /\ slots_match f = true
        /\ In (template_text f) ["to_tsquery(?)"; "to_tsquery(?, ?)"]
        /\ (params f = [arg1] \/ params f = [arg1; arg2]))
  /\ (exists f,
        plainto_tsquery compose arg1 arg2 = Normal f
        /\ slots_match f = true
        /\ In (template_text f)
             ["plainto_tsquery(?)"; "plainto_tsquery(?, ?)"]
        /\ (params f = [arg1] \/ params f = [arg1; arg2]))
  /\ (exists f,
        phraseto_tsquery compose arg1 arg2 = Normal f
        /\ slots_match f = true
        /\ In (template_text f)
             ["phraseto_tsquery(?)"; "phraseto_tsquery(?, ?)"]
        /\ (params f = [arg1] \/ params f = [arg1; arg2]))
  /\ (exists f,
        websearch_to_tsquery compose arg1 arg2 = Normal f
        /\ slots_match f = true
        /\ In (template_text f)
             ["websearch_to_tsquery(?)"; "websearch_to_tsquery(?, ?)"]
        /\ (params f = [arg1] \/ params f = [arg1; arg2])).
Proof.
  unfold to_tsvector, to_tsquery, plainto_tsquery, phraseto_tsquery,
    websearch_to_tsquery.
  destruct (ToBoolean arg2); repeat split;
    eexists; (split; [reflexivity | ]); (split; [reflexivity | ]);
    simpl; auto.
Qed.

(** X2: whatever the four arguments are, [ts_rank] and [ts_rank_cd] build a
    well-formed fragment whose text is one of four constant texts.  Its
    bindings are an initial segment, of length at least two, of the arguments
    in call order, the first argument being bound either as it is or, when it
    is an array taken as weights, as its elements joined with commas. *)
Theorem rank_builders_shape (arg1 arg2 arg3 arg4 : value) :
  (exists f first count,
     ts_rank compose arg1 arg2 arg3 arg4 = Normal f
     /\ slots_match f = true
     /\ In (template_text f)
          ["ts_rank(?, ?)"; "ts_rank(?, ?, ?)";
           "ts_rank(string_to_array(?, ',')::float4[], ?, ?)";
           "ts_rank(string_to_array(?, ',')::float4[], ?, ?, ?)"]
     /\ params f = firstn count [first; arg2; arg3; arg4]
     /\ 2 <= count
     /\ (first = arg1
         \/ exists w, arg1 = VArray w /\ first = VString (Array_join w ",")))
  /\ (exists f first count,
        ts_rank_cd compose arg1 arg2 arg3 arg4 = Normal f
        /\ slots_match f = true
        /\ In (template_text f)
             ["ts_rank_cd(?, ?)"; "ts_rank_cd(?, ?, ?)";
              "ts_rank_cd(string_to_array(?, ',')::float4[], ?, ?)";
              "ts_rank_cd(string_to_array(?, ',')::float4[], ?, ?, ?)"]
        /\ params f = firstn count [first; arg2; arg3; arg4]
        /\ 2 <= count
        /\ (first = arg1
            \/ exists w,
                 arg1 = VArray w /\ first = VString (Array_join w ","))).
Proof.
  pose proof (weights_guard_spec arg1 arg2 arg3) as guard_spec.
  unfold ts_rank, ts_rank_cd.
  destruct (Array_isArray arg1 && negb (typeof arg2 =? "number")
            && negb (is_undefined arg3)).
  - destruct (proj1 guard_spec eq_refl) as ((w & ->) & _ & _).
    cbn [join bind].
    destruct (ToBoolean arg4); split;
      eexists; exists (VString (Array_join w ","));
      [ exists 4 | exists 4 | exists 3 | exists 3 ];
      (split; [reflexivity | ]); (split; [reflexivity | ]);
      (split; [simpl; auto | ]); (split; [reflexivity | ]);
      (split; [lia | right; exists w; split; reflexivity]).
  - destruct (ToBoolean arg3); split;
      eexists; exists arg1;
      [ exists 3 | exists 3 | exists 2 | exists 2 ];
      (split; [reflexivity | ]); (split; [reflexivity | ]);
      (split; [simpl; auto | ]); (split; [reflexivity | ]);
      (split; [lia | left; reflexivity]).
Qed.

(** X7: on the same two arguments the five builders with an optional
    configuration build the same fragment up to the name of the SQL function:
    the same bindings, and the same text after the name. *)
Theorem configured_builders_differ_by_name (arg1 arg2 : value) :
  exists tail bindings,
    rendered (to_tsvector compose arg1 arg2)
    = Normal ("to_tsvector" ++ tail, bindings)
    /\ rendered (to_tsquery compose arg1 arg2)
       = Normal ("to_tsquery" ++ tail, bindings)
    /\ rendered (plainto_tsquery compose arg1 arg2)
       = Normal ("plainto_tsquery" ++ tail, bindings)
    /\ rendered (phraseto_tsquery compose arg1 arg2)
       = Normal ("phraseto_tsquery" ++ tail, bindings)
    /\ rendered (websearch_to_tsquery compose arg1 arg2)
       = Normal ("websearch_to_tsquery" ++ tail, bindings).
Proof.
  unfold to_tsvector, to_tsquery, plainto_tsquery, phraseto_tsquery,
    websearch_to_tsquery.
  destruct (ToBoolean arg2).
  - exists "(?, ?)", [arg1; arg2]. repeat split; reflexivity.
  - exists "(?)", [arg1]. repeat split; reflexivity.
Qed.

(** X8: on the same four arguments [ts_rank] and [ts_rank_cd] build the same
    fragment up to the name of the SQL function. *)
Theorem rank_builders_differ_by_name (arg1 arg2 arg3 arg4 : value) :
  exists tail bindings,
    rendered (ts_rank compose arg1 arg2 arg3 arg4)
    = Normal ("ts_rank" ++ tail, bindings)
    /\ rendered (ts_rank_cd compose arg1 arg2 arg3 arg4)
       = Normal ("ts_rank_cd" ++ tail, bindings).
Proof.
  pose proof (weights_guard_spec arg1 arg2 arg3) as guard_spec.
  unfold ts_rank, ts_rank_cd.
  destruct (Array_isArray arg1 && negb (typeof arg2 =? "number")
            && negb (is_undefined arg3)).
  - destruct (proj1 guard_spec eq_refl) as ((w & ->) & _ & _).
    cbn [join bind].
    destruct (ToBoolean arg4).
    + exists "(string_to_array(?, ',')::float4[], ?, ?, ?)",
        [VString (Array_join w ","); arg2; arg3; arg4].
      split; reflexivity.
    + exists "(string_to_array(?, ',')::float4[], ?, ?)",
        [VString (Array_join w ","); arg2; arg3].
      split; reflexivity.
  - destruct (ToBoolean arg3).
    + exists "(?, ?, ?)", [arg1; arg2; arg3]. split; reflexivity.
    + exists "(?, ?)", [arg1; arg2]. split; reflexivity.
Qed.

(** X3: in a ranking call on a vector and a query, with or without weights,
    a numeric normalization is bound to the trailing slot exactly when it is
    neither a zero nor [NaN]; a zero of either sign and [NaN] are left out. *)
Theorem normalization_rendered_iff_nonzero
  (w : list number) (vector query : SQL) (n : number) :
  (rendered (ts_rank compose (VSQL vector) (VSQL query) (VNumber n)
               VUndefined)
   = Normal ("ts_rank(?, ?, ?)", [VSQL vector; VSQL query; VNumber n])
   <-> n <> NaN /\ forall negative, n <> Zero negative)
  /\ (rendered (ts_rank compose (VArray w) (VSQL vector) (VSQL query)
                  (VNumber n))
      = Normal ("ts_rank(string_to_array(?, ',')::float4[], ?, ?, ?)",
                [VString (Array_join w ","); VSQL vector; VSQL query;
                 VNumber n])
      <-> n <> NaN /\ forall negative, n <> Zero negative)
  /\ (rendered (ts_rank_cd compose (VSQL vector) (VSQL query) (VNumber n)
                  VUndefined)
      = Normal ("ts_rank_cd(?, ?, ?)", [VSQL vector; VSQL query; VNumber n])
      <-> n <> NaN /\ forall negative, n <> Zero negative)
  /\ (rendered (ts_rank_cd compose (VArray w) (VSQL vector) (VSQL query)
                  (VNumber n))
      = Normal ("ts_rank_cd(string_to_array(?, ',')::float4[], ?, ?, ?)",
                [VString (Array_join w ","); VSQL vector; VSQL query;
                 VNumber n])
      <-> n <> NaN /\ forall negative, n <> Zero negative).
Proof.
  destruct n as [ | negative | negative | negative s e ];
    repeat match goal with
           | |- _ /\ _ => split
           | |- _ <-> _ => split
           end;
    first
      [ intros _; split; [discriminate | intros sign; discriminate]
      | intros _; reflexivity
      | intros different; discriminate different
      | intros [not_nan not_zero]; exfalso;
        solve [ apply not_nan; reflexivity
              | apply (not_zero negative); reflexivity ] ].
Qed.

(** X5: a leading configuration is kept exactly when the payload is truthy.
    With a column as document [to_tsvector] always builds the two-slot
    fragment, configuration first; with a string as payload each of the five
    builders does so exactly when the string is not empty. *)
Theorem configuration_kept_iff_payload_nonempty
  (configuration text : string) (column : AnyPgColumn) :
  rendered (to_tsvector compose (VString configuration) (VColumn column))
  = Normal ("to_tsvector(?, ?)", [VString configuration; VColumn column])
  /\ (rendered (to_tsvector compose (VString configuration : value) (VString text))
      = Normal ("to_tsvector(?, ?)", [VString configuration; VString text])
      <-> text <> "")
  /\ (rendered (to_tsquery compose (VString configuration : value) (VString text))
      = Normal ("to_tsquery(?, ?)", [VString configuration; VString text])
      <-> text <> "")
  /\ (rendered (plainto_tsquery compose (VString configuration : value)
                  (VString text))
      = Normal ("plainto_tsquery(?, ?)",
                [VString configuration; VString text])
      <-> text <> "")
  /\ (rendered (phraseto_tsquery compose (VString configuration : value)
                  (VString text))
      = Normal ("phraseto_tsquery(?, ?)",
                [VString configuration; VString text])
      <-> text <> "")
  /\ (rendered (websearch_to_tsquery compose (VString configuration : value)
                  (VString text))
      = Normal ("websearch_to_tsquery(?, ?)",
                [VString configuration; VString text])
      <-> text <> "").
Proof.
  split; [reflexivity | ].
  unfold to_tsvector, to_tsquery, plainto_tsquery, phraseto_tsquery,
    websearch_to_tsquery.
  cbn [ToBoolean].
  destruct (String.eqb_spec text "") as [-> | nonempty]; cbn [negb];
    repeat match goal with
           | |- _ /\ _ => split
           | |- _ <-> _ => split
           end;
    first
      [ intros _; reflexivity
      | intros _; exact nonempty
      | intros different; discriminate different
      | intros different; exfalso; apply different; reflexivity ].
Qed.

(** X6: the text bound for a non-empty weights array splits back, at its
    commas, into the printed weights: one field per weight, in order.  No
    weight prints with a comma, so the receiving [string_to_array(?, ',')]
    sees as many elements as the array has. *)
Theorem joined_weights_split_back
  (x : number) (others : list number) (vector query : SQL)
  (normalization : option number) :
  exists f g text rest,
    ts_rank compose (VArray (x :: others)) (VSQL vector) (VSQL query)
      (optional normalization) = Normal f
    /\ ts_rank_cd compose (VArray (x :: others)) (VSQL vector) (VSQL query)
         (optional normalization) = Normal g
    /\ params f = VString text :: rest
    /\ params g = VString text :: rest
    /\ fields text = map Number_toString (x :: others)
    /\ List.length (fields text) = S (List.length others).
Proof.
  unfold ts_rank, ts_rank_cd.
  cbn [Array_isArray typeof is_undefined join bind andb negb
       String.eqb Ascii.eqb Bool.eqb].
  destruct (ToBoolean (optional normalization : value));
    eexists; eexists; exists (Array_join (x :: others) ","); eexists;
    (split; [reflexivity | ]); (split; [reflexivity | ]);
    (split; [reflexivity | ]); (split; [reflexivity | ]);
    rewrite fields_of_join;
    (split; [ reflexivity | simpl; rewrite length_map; reflexivity ]).
Qed.

End Shapes.

Lemma plain_rank_ignores_fourth_argument_witness :
  (Array_isArray (VSQL sample_vector : sample_value) = false
   \/ typeof (VSQL sample_query : sample_value) = "number"
   \/ (VNumber num_32 : sample_value) = VUndefined)
  /\ ts_rank compose (VSQL sample_vector) (VSQL sample_query)
       (VNumber num_32) (VNumber num_2)
     = ts_rank compose (VSQL sample_vector) (VSQL sample_query)
         (VNumber num_32) VUndefined
  /\ ts_rank_cd compose (VSQL sample_vector) (VSQL sample_query)
       (VNumber num_32) (VNumber num_2)
     = ts_rank_cd compose (VSQL sample_vector) (VSQL sample_query)
         (VNumber num_32) VUndefined.
Proof.
  split; [left; reflexivity | ].
  apply (plain_rank_ignores_fourth_argument compose
           (VSQL sample_vector) (VSQL sample_query) (VNumber num_32)
           (VNumber num_2)).
  left. reflexivity.
Defined.
